(** * utils/registry.py: the name -> object [Registry]

    A shallow embedding of the [Registry] class and a verification of its
    registration and lookup behaviour.

    Python values are modelled by the inductive type [value]; the instance
    attributes [_name] and [_obj_map] form the record [registry]; a method
    is a function from the registry before the call to an outcome (a
    returned value or a raised exception) paired with the registry after
    the call, so that whatever a method stored before it raised is still
    there afterwards, as it is for a Python object.

    A text is the sequence of bytes of its UTF-8 encoding. The built-in
    [str.upper] and the built-in [repr] of a string are not code of this
    class: every definition and every statement takes them as given, as
    the functions [upper] and [repr] on texts; where a statement needs
    that uppercasing twice is uppercasing once, it says so. Their
    restrictions to ASCII text, [PyStr.upper_ascii] and [PyStr.repr_ascii],
    only serve to run the definitions on ASCII examples. Statements are
    checked with assertions enabled (the interpreter's default mode). *)

From Stdlib Require Import String Ascii List Bool Arith ZArith.
From ExtLib Require Import Structures.Monad.
Import ListNotations.
Import MonadNotation.
Local Open Scope string_scope.
Local Open Scope monad_scope.

(** ** Built-in string operations used by the registry *)

Module PyStr.

(** [s.startswith(p)]. *)
Fixpoint startswith (p s : string) : bool :=
  match p, s with
  | EmptyString, _ => true
  | String a p', String b s' => Ascii.eqb a b && startswith p' s'
  | String _ _, EmptyString => false
  end.

(** [sub in s]. *)
Fixpoint contains (sub s : string) : bool :=
  startswith sub s ||
  match s with
  | EmptyString => false
  | String _ s' => contains sub s'
  end.

(** [sep.join(l)]. *)
Fixpoint join (sep : string) (l : list string) : string :=
  match l with
  | [] => EmptyString
  | [x] => x
  | x :: rest => x ++ sep ++ join sep rest
  end.

(** [template.format(a, b, ...)] for templates whose only replacement
    fields are the automatically numbered [{}]. Both templates of the
    registry carry exactly as many fields as arguments; a field with no
    argument left (an [IndexError] in Python) does not arise and is
    rendered empty here. *)
Fixpoint format (template : string) (args : list string) : string :=
  match template with
  | String "{"%char (String "}"%char rest) =>
      match args with
      | a :: args' => a ++ format rest args'
      | [] => format rest []
      end
  | String c rest => String c (format rest args)
  | EmptyString => EmptyString
  end.

(** *** The built-ins on ASCII text

    What [str.upper] and [repr] compute on a text whose codes are all
    below 128. They stand for the built-ins in the examples only, all of
    which are ASCII; no statement about the registry is made through
    them. *)

Definition upper_char (c : ascii) : ascii :=
  let n := nat_of_ascii c in
  if ((97 <=? n) && (n <=? 122))%nat then ascii_of_nat (n - 32) else c.

Fixpoint upper_ascii (s : string) : string :=
  match s with
  | EmptyString => EmptyString
  | String c s' => String (upper_char c) (upper_ascii s')
  end.

Fixpoint has_char (c : ascii) (s : string) : bool :=
  match s with
  | EmptyString => false
  | String b s' => Ascii.eqb c b || has_char c s'
  end.

Definition hex_digit (n : nat) : ascii :=
  if (n <? 10)%nat then ascii_of_nat (48 + n) else ascii_of_nat (87 + n).

Definition squote : ascii := "039"%char.
Definition dquote : ascii := "034"%char.
Definition backslash : ascii := "092"%char.

(** The quote [repr] encloses a string in: double quotes only when the
    string has a single quote and no double quote. *)
Definition repr_quote (s : string) : ascii :=
  if has_char squote s && negb (has_char dquote s) then dquote else squote.

(** The rendering of one ASCII character inside [repr]. *)
Definition repr_char (q c : ascii) : string :=
  let n := nat_of_ascii c in
  if Ascii.eqb c q || Ascii.eqb c backslash
  then String backslash (String c EmptyString)
  else if (n =? 9)%nat then String backslash "t"
  else if (n =? 10)%nat then String backslash "n"
  else if (n =? 13)%nat then String backslash "r"
  else if ((n <? 32) || (126 <? n))%nat then
    String backslash (String "x"%char
      (String (hex_digit (n / 16)) (String (hex_digit (n mod 16)) EmptyString)))
  else String c EmptyString.

Fixpoint repr_body (q : ascii) (s : string) : string :=
  match s with
  | EmptyString => EmptyString
  | String c s' => repr_char q c ++ repr_body q s'
  end.

Definition repr_ascii (s : string) : string :=
  let q := repr_quote s in
  String q (repr_body q s ++ String q EmptyString).

End PyStr.

(** ** Python values *)

(** The objects a registry is handed: [None], strings, integers (an
    example of an object with neither [__name__] nor [upper]), classes and
    functions (an object with an identity [addr] and, when it has one, its
    [__name__]), and the closure [deco] that [Registry.register] returns,
    which captures [module_name] (and the registry itself). *)
Inductive value : Type :=
| VNone
| VStr (s : string)
| VInt (z : Z)
| VObj (addr : positive) (dunder_name : option string)
| VDeco (module_name : value).

(** [v is None]. *)
Definition is_None (v : value) : bool :=
  match v with
  | VNone => true
  | _ => false
  end.

(** ** Exceptions and outcomes *)

Inductive exn : Type :=
| AssertionError (msg : string)
| KeyError (msg : string)
| AttributeError (attr : string).

Inductive outcome (A : Type) : Type :=
| Return (a : A)
| Raise (e : exn).
Arguments Return {A} a.
Arguments Raise {A} e.

(** ** The built-in [dict], keyed by strings, in insertion order *)

Module PyDict.

Definition dict : Type := list (string * value).

(** [k in d]. *)
Fixpoint contains (k : string) (d : dict) : bool :=
  match d with
  | [] => false
  | (k', _) :: d' => String.eqb k k' || contains k d'
  end.

(** [d.get(k)]: the value stored under [k], [None] when there is none. *)
Fixpoint get (k : string) (d : dict) : value :=
  match d with
  | [] => VNone
  | (k', v) :: d' => if String.eqb k k' then v else get k d'
  end.

(** [d[k] = v]: an existing key keeps its position, a new one goes last. *)
Fixpoint setitem (k : string) (v : value) (d : dict) : dict :=
  match d with
  | [] => [(k, v)]
  | (k', v') :: d' =>
      if String.eqb k k' then (k', v) :: d' else (k', v') :: setitem k v d'
  end.

(** [d.keys()], in insertion order. *)
Definition keys (d : dict) : list string := map fst d.

Section KeyView.

(** The built-in [repr] of a string. *)
Variable repr : string -> string.

(** [str(d.keys())]. *)
Definition str_keys (d : dict) : string :=
  "dict_keys([" ++ PyStr.join ", " (map repr (keys d)) ++ "])".

End KeyView.

End PyDict.

(** ** The class [Registry] *)

Module Registry.

(** The instance attributes. *)
Record registry : Type := mkRegistry {
  _name : string;
  _obj_map : PyDict.dict
}.

(** A method body: from the instance before the call to the outcome and
    the instance after it. *)
Definition method (A : Type) : Type := registry -> outcome A * registry.

#[export] Instance Monad_method : Monad method := {
  ret := fun A (a : A) self => (Return a, self);
  bind := fun A B (c : method A) (k : A -> method B) self =>
    match c self with
    | (Return a, self') => k a self'
    | (Raise e, self') => (Raise e, self')
    end
}.

Definition raise {A : Type} (e : exn) : method A :=
  fun self => (Raise e, self).

(** Reading an attribute of [self]. *)
Definition read {A : Type} (f : registry -> A) : method A :=
  fun self => (Return (f self), self).

(** [self._obj_map[k] = v]. *)
Definition store (k : string) (v : value) : method unit :=
  fun self =>
    (Return tt, mkRegistry (_name self) (PyDict.setitem k v (_obj_map self))).

(** [assert cond, msg]. *)
Definition assert_ (cond : bool) (msg : string) : method unit :=
  if cond then ret tt else raise (AssertionError msg).

Section Methods.

(** The built-in [str.upper] and the built-in [repr] of a string. *)
Variables upper repr : string -> string.

(** [v.upper()]: only strings have the method. *)
Definition call_upper (v : value) : method string :=
  match v with
  | VStr s => ret (upper s)
  | _ => raise (AttributeError "upper")
  end.

(** [v.__name__]: classes and functions have one; the closure returned
    by [register] is a function named [deco]. *)
Definition dunder_name (v : value) : option string :=
  match v with
  | VObj _ (Some n) => Some n
  | VDeco _ => Some "deco"
  | _ => None
  end.

Definition getattr_name (v : value) : method value :=
  match dunder_name v with
  | Some n => ret (VStr n)
  | None => raise (AttributeError "__name__")
  end.

(** [Registry(name)]. *)
Definition __init__ (name : string) : registry := mkRegistry name [].

Definition _do_register (name obj : value) : method unit :=
  upper_name <- call_upper name ;;
  present <- read (fun self => PyDict.contains upper_name (_obj_map self)) ;;
  self_name <- read _name ;;
  assert_ (negb present)
    (PyStr.format "An object named '{}' was already registered in '{}' registry!"
       [upper_name; self_name]) ;;
  store upper_name obj.

(** The closure [deco] of [register], with its captured [module_name]. *)
Definition deco (module_name func_or_class : value) : method value :=
  name <- (if negb (is_None module_name) then ret module_name
           else getattr_name func_or_class) ;;
  _do_register name func_or_class ;;
  ret func_or_class.

Definition register (module_name obj : value) : method value :=
  if is_None obj then
    ret (VDeco module_name)
  else
    name <- (if negb (is_None module_name) then ret module_name
             else getattr_name obj) ;;
    _do_register name obj ;;
    ret VNone.

Definition get (name : value) : method value :=
  key <- call_upper name ;;
  ret_ <- read (fun self => PyDict.get key (_obj_map self)) ;;
  if is_None ret_ then
    key' <- call_upper name ;;
    self_name <- read _name ;;
    keys <- read (fun self => PyDict.str_keys repr (_obj_map self)) ;;
    raise (KeyError
      (PyStr.format "No object named '{}' found in '{}' registry[{}]!"
         [key'; self_name; keys]))
  else ret ret_.

Definition __getitem__ (name : value) : method value :=
  r <- get name ;; ret r.

Section Str.

(** [repr] of an integer, a class, a function or a closure: text that
    the interpreter decides (digits, module path, memory address), taken
    as given. *)
Variable repr_object : value -> string.

(** [repr(v)]. *)
Definition repr_value (v : value) : string :=
  match v with
  | VNone => "None"
  | VStr s => repr s
  | _ => repr_object v
  end.

(** One [key: value] item of [str(d)]. *)
Definition str_item (kv : string * value) : string :=
  repr (fst kv) ++ ": " ++ repr_value (snd kv).

(** [str(d)] for a dictionary. *)
Definition str_dict (d : PyDict.dict) : string :=
  "{" ++ PyStr.join ", " (map str_item d) ++ "}".

Definition __str__ : method string :=
  s <- read (fun self => _name self ++ ":") ;;
  m <- read (fun self => str_dict (_obj_map self)) ;;
  ret (s ++ m).

End Str.

End Methods.

End Registry.

(** ** Client programs *)

(** The calls a client makes on one registry. [ApplyDeco m t] applies to
    [t] the closure that [register(m)] returned; the closure shares the
    registry, so it acts on the registry as it is when it is applied. *)
Inductive op : Type :=
| Register (module_name obj : value)
| ApplyDeco (module_name target : value)
| Get (name : value)
| GetItem (name : value).

(** The object a call stores when it succeeds: the [obj] of a direct
    registration, the target of an applied closure; nothing for a call
    that only hands back the closure, or for a lookup. *)
Definition stored_object (o : op) : option value :=
  match o with
  | Register _ obj => if is_None obj then None else Some obj
  | ApplyDeco _ target => Some target
  | Get _ | GetItem _ => None
  end.

(** The name a registration of [obj] with [module_name] goes under:
    [module_name] when it is given, the [__name__] of [obj] otherwise. *)
Definition registered_as (module_name obj : value) (name : string) : Prop :=
  module_name = VStr name \/
  (module_name = VNone /\ Registry.dunder_name obj = Some name).

(** The texts the two message templates expand to. *)
Definition duplicate_message (key self_name : string) : string :=
  "An object named '" ++ key ++ "' was already registered in '"
    ++ self_name ++ "' registry!".

Definition missing_message (key self_name keys : string) : string :=
  "No object named '" ++ key ++ "' found in '" ++ self_name
    ++ "' registry[" ++ keys ++ "]!".

(** * Verification, for any [str.upper] and [repr] *)

Section Verification.

Import Registry.

(** The built-in [str.upper] and the built-in [repr] of a string. *)
Variables upper repr : string -> string.

(** Uppercasing an uppercased text changes nothing. Only the statements
    about the keys being in uppercase rest on it. *)
Hypothesis upper_idem : forall s : string, upper (upper s) = upper s.

Local Abbreviation _do_register := (Registry._do_register upper).
Local Abbreviation register := (Registry.register upper).
Local Abbreviation deco := (Registry.deco upper).
Local Abbreviation get := (Registry.get upper repr).
Local Abbreviation __getitem__ := (Registry.__getitem__ upper repr).
Local Abbreviation call_upper := (Registry.call_upper upper).
Local Abbreviation __str__ := (Registry.__str__ repr).
Local Abbreviation str_dict := (Registry.str_dict repr).
Local Abbreviation str_item := (Registry.str_item repr).
Local Abbreviation repr_value := (Registry.repr_value repr).

Definition run_op (o : op) : method value :=
  match o with
  | Register m obj => register m obj
  | ApplyDeco m t => deco m t
  | Get n => get n
  | GetItem n => __getitem__ n
  end.

(** The registry after a sequence of calls, each exception being caught
    by the client. *)
Definition exec (ops : list op) (self : registry) : registry :=
  fold_left (fun s o => snd (run_op o s)) ops self.

(** The registries a client can build from a fresh one. *)
Definition reachable (self : registry) : Prop :=
  exists name ops, self = exec ops (__init__ name).

(** A registry whose keys are all in uppercase and pairwise distinct. *)
Definition normalized (self : registry) : Prop :=
  Forall (fun k => upper k = k) (PyDict.keys (_obj_map self)) /\
  NoDup (PyDict.keys (_obj_map self)).

(** What a call of [_do_register] leaves behind: the registry as it was,
    or the registry with one entry appended under an uppercase key that
    was not there. *)
Inductive grows (self : registry) : registry -> Prop :=
| grows_same : grows self self
| grows_entry (s : string) (obj : value) :
    PyDict.contains (upper s) (_obj_map self) = false ->
    grows self
      (mkRegistry (_name self) (_obj_map self ++ [(upper s, obj)])%list).

(** * Properties of the string operations *)

Section StringFacts.

Lemma upper_char_idem (c : ascii) :
  PyStr.upper_char (PyStr.upper_char c) = PyStr.upper_char c.
Proof. destruct c as [[] [] [] [] [] [] [] []]; vm_compute; reflexivity. Qed.

Lemma upper_ascii_idem (s : string) :
  PyStr.upper_ascii (PyStr.upper_ascii s) = PyStr.upper_ascii s.
Proof.
  induction s as [| c s IH]; simpl; [reflexivity |].
  now rewrite upper_char_idem, IH.
Qed.

Lemma append_assoc (a b c : string) : (a ++ b) ++ c = a ++ (b ++ c).
Proof. induction a as [| x a IH]; simpl; [reflexivity | now rewrite IH]. Qed.

Lemma append_nil_r (a : string) : a ++ EmptyString = a.
Proof. induction a as [| x a IH]; simpl; [reflexivity | now rewrite IH]. Qed.

Lemma startswith_app (p post : string) : PyStr.startswith p (p ++ post) = true.
Proof.
  induction p as [| a p IH]; simpl; [reflexivity |].
  now rewrite Ascii.eqb_refl, IH.
Qed.

Lemma startswith_inv (p s : string) :
  PyStr.startswith p s = true -> exists post, s = p ++ post.
Proof.
  revert s; induction p as [| a p IH]; intros s H.
  - now exists s.
  - destruct s as [| b s]; simpl in H; [discriminate |].
    apply andb_true_iff in H as [Hab Hps].
    apply Ascii.eqb_eq in Hab; subst b.
    destruct (IH _ Hps) as [post ->]. now exists post.
Qed.

Lemma startswith_contains (sub s : string) :
  PyStr.startswith sub s = true -> PyStr.contains sub s = true.
Proof. intros H. destruct s; simpl; now rewrite H. Qed.

Lemma contains_tail (sub : string) (c : ascii) (s : string) :
  PyStr.contains sub s = true -> PyStr.contains sub (String c s) = true.
Proof.
  intros H. change (PyStr.contains sub (String c s))
    with (PyStr.startswith sub (String c s) || PyStr.contains sub s).
  rewrite H. apply orb_true_r.
Qed.

(** [sub in s] holds exactly when [s] is some text, then [sub], then
    some more text. *)
Lemma contains_iff (sub s : string) :
  PyStr.contains sub s = true <-> exists pre post, s = pre ++ sub ++ post.
Proof.
  split.
  - induction s as [| c s IH]; simpl; intros H.
    + rewrite orb_false_r in H. apply startswith_inv in H as [post ->].
      now exists EmptyString, post.
    + apply orb_true_iff in H as [H | H].
      * apply startswith_inv in H as [post ->]. now exists EmptyString, post.
      * destruct (IH H) as (pre & post & ->). now exists (String c pre), post.
  - intros (pre & post & ->).
    induction pre as [| c pre IH].
    + change (PyStr.contains sub (sub ++ post) = true).
      apply startswith_contains, startswith_app.
    + change (PyStr.contains sub (String c (pre ++ sub ++ post)) = true).
      apply contains_tail, IH.
Qed.

Lemma contains_mid (pre sub post : string) :
  PyStr.contains sub (pre ++ sub ++ post) = true.
Proof. apply contains_iff. now exists pre, post. Qed.

Lemma contains_refl (s : string) : PyStr.contains s s = true.
Proof.
  apply contains_iff. exists EmptyString, EmptyString.
  simpl. now rewrite append_nil_r.
Qed.

Lemma contains_trans (a b c : string) :
  PyStr.contains a b = true -> PyStr.contains b c = true ->
  PyStr.contains a c = true.
Proof.
  rewrite !contains_iff. intros (p1 & q1 & ->) (p2 & q2 & ->).
  exists (p2 ++ p1), (q1 ++ q2). now rewrite !append_assoc.
Qed.

Lemma join_cons (sep y z : string) (l : list string) :
  PyStr.join sep (y :: z :: l) = y ++ sep ++ PyStr.join sep (z :: l).
Proof. reflexivity. Qed.

(** Every element of a joined list is part of the joined text. *)
Lemma contains_join (sep x : string) (l : list string) :
  In x l -> PyStr.contains x (PyStr.join sep l) = true.
Proof.
  induction l as [| y l IH]; intros H; [destruct H |].
  destruct l as [| z l].
  - destruct H as [-> | []]. apply contains_refl.
  - rewrite join_cons. destruct H as [-> | H].
    + apply (contains_mid EmptyString).
    + apply contains_trans with (PyStr.join sep (z :: l)); [now apply IH |].
      apply contains_iff. exists (y ++ sep), EmptyString.
      now rewrite append_nil_r, append_assoc.
Qed.

End StringFacts.

(** * Properties of the dictionary *)

Section DictFacts.

Import PyDict.

Lemma contains_In (k : string) (d : dict) :
  contains k d = true <-> In k (keys d).
Proof.
  induction d as [| [k' v] d IH]; simpl.
  - split; [discriminate | tauto].
  - rewrite orb_true_iff, IH, String.eqb_eq. intuition congruence.
Qed.

Lemma contains_app (k : string) (d e : dict) :
  contains k (d ++ e)%list = contains k d || contains k e.
Proof.
  induction d as [| [k' v] d IH]; simpl; [reflexivity |].
  now rewrite IH, orb_assoc.
Qed.

Lemma get_absent (k : string) (d : dict) :
  contains k d = false -> get k d = VNone.
Proof.
  induction d as [| [k' v] d IH]; simpl; [reflexivity |].
  intros H. apply orb_false_iff in H as [-> H]. now apply IH.
Qed.

Lemma get_app_present (k : string) (d e : dict) :
  contains k d = true -> get k (d ++ e)%list = get k d.
Proof.
  induction d as [| [k' v] d IH]; simpl; [discriminate |].
  destruct (String.eqb k k'); simpl; [reflexivity | exact IH].
Qed.

Lemma get_app_absent (k : string) (d e : dict) :
  contains k d = false -> get k (d ++ e)%list = get k e.
Proof.
  induction d as [| [k' v] d IH]; simpl; [reflexivity |].
  intros H. apply orb_false_iff in H as [-> H]. now apply IH.
Qed.

(** Storing under a key that is not there yet appends the entry. *)
Lemma setitem_fresh (k : string) (v : value) (d : dict) :
  contains k d = false -> setitem k v d = (d ++ [(k, v)])%list.
Proof.
  induction d as [| [k' v'] d IH]; simpl; [reflexivity |].
  intros H. apply orb_false_iff in H as [-> H]. now rewrite IH.
Qed.

Lemma keys_app (d e : dict) : keys (d ++ e)%list = (keys d ++ keys e)%list.
Proof. apply map_app. Qed.

End DictFacts.

(** * How each method evaluates *)

Section MethodFacts.

Lemma format_duplicate (key self_name : string) :
  PyStr.format "An object named '{}' was already registered in '{}' registry!"
    [key; self_name] = duplicate_message key self_name.
Proof.
  reflexivity.
Qed.

Lemma format_missing (key self_name keys : string) :
  PyStr.format "No object named '{}' found in '{}' registry[{}]!"
    [key; self_name; keys] = missing_message key self_name keys.
Proof.
  reflexivity.
Qed.

Ltac run_method :=
  cbv [Registry._do_register Registry.deco Registry.register Registry.get
       Registry.__getitem__ getattr_name Registry.call_upper
       assert_ store read raise bind ret Monad_method];
  cbn [is_None negb _name _obj_map].

Lemma do_register_fresh (s : string) (obj : value) (self : registry) :
  PyDict.contains (upper s) (_obj_map self) = false ->
  _do_register (VStr s) obj self =
    (Return tt,
     mkRegistry (_name self) (_obj_map self ++ [(upper s, obj)])%list).
Proof.
  intros H. run_method. rewrite H. cbn. now rewrite setitem_fresh.
Qed.

Lemma do_register_dup (s : string) (obj : value) (self : registry) :
  PyDict.contains (upper s) (_obj_map self) = true ->
  _do_register (VStr s) obj self =
    (Raise (AssertionError (duplicate_message (upper s) (_name self))),
     self).
Proof. intros H. run_method. rewrite H. reflexivity. Qed.


(** Decorator mode: the call hands back the closure and stores nothing. *)
Lemma register_decorator (module_name : value) (self : registry) :
  register module_name VNone self = (Return (VDeco module_name), self).
Proof. reflexivity. Qed.

(** Direct mode goes through [_do_register] with the chosen name. *)
Lemma register_direct (module_name obj : value) (name : string)
      (self : registry) :
  obj <> VNone -> registered_as module_name obj name ->
  register module_name obj self =
    match _do_register (VStr name) obj self with
    | (Return _, self') => (Return VNone, self')
    | (Raise e, self') => (Raise e, self')
    end.
Proof.
  intros Hobj [-> | [-> Hn]].
  - destruct obj; try reflexivity. now destruct Hobj.
  - unfold Registry.register, getattr_name. rewrite Hn.
    destruct obj; try reflexivity. now destruct Hobj.
Qed.

(** So does the closure, which hands its argument back. *)
Lemma deco_body (module_name target : value) (name : string)
      (self : registry) :
  registered_as module_name target name ->
  deco module_name target self =
    match _do_register (VStr name) target self with
    | (Return _, self') => (Return target, self')
    | (Raise e, self') => (Raise e, self')
    end.
Proof.
  intros [-> | [-> Hn]]; [reflexivity |].
  unfold Registry.deco, getattr_name. rewrite Hn. reflexivity.
Qed.

Lemma get_str (s : string) (self : registry) :
  get (VStr s) self =
    if is_None (PyDict.get (upper s) (_obj_map self))
    then (Raise (KeyError (missing_message (upper s) (_name self)
                             (PyDict.str_keys repr (_obj_map self)))), self)
    else (Return (PyDict.get (upper s) (_obj_map self)), self).
Proof.
  run_method. destruct (PyDict.get (upper s) (_obj_map self)); reflexivity.
Qed.

Lemma get_not_str (name : value) (self : registry) :
  (forall s, name <> VStr s) ->
  get name self = (Raise (AttributeError "upper"), self).
Proof.
  intros H. destruct name; try reflexivity. now destruct (H s).
Qed.

Lemma getitem_get (name : value) (self : registry) :
  __getitem__ name self = get name self.
Proof.
  unfold Registry.__getitem__. cbn [bind ret Monad_method].
  now destruct (get name self) as [[v | e] self'].
Qed.

Lemma get_frame (name : value) (self : registry) :
  snd (get name self) = self.
Proof.
  destruct name as [| s | | |]; try reflexivity.
  rewrite get_str. now destruct (is_None _).
Qed.

Lemma do_register_grows (name obj : value) (self : registry) :
  grows self (snd (_do_register name obj self)).
Proof.
  destruct name as [| s | | |]; try apply grows_same.
  destruct (PyDict.contains (upper s) (_obj_map self)) eqn:E.
  - rewrite do_register_dup by assumption. apply grows_same.
  - rewrite do_register_fresh by assumption. now apply grows_entry.
Qed.

Lemma bind_do_register_grows (name obj v : value) (self : registry) :
  grows self (snd ((_do_register name obj ;; ret v) self)).
Proof.
  cbn [bind ret Monad_method].
  pose proof (do_register_grows name obj self) as H.
  destruct (_do_register name obj self) as [[u | e] self']; exact H.
Qed.

Lemma named_register_grows (c : method value) (obj v : value)
      (self : registry) :
  snd (c self) = self ->
  grows self (snd ((name <- c ;; _do_register name obj ;; ret v) self)).
Proof.
  intros Hc. cbn [bind ret Monad_method].
  destruct (c self) as [[name | e] self']; simpl in Hc; subst self'.
  - apply (bind_do_register_grows name obj v self).
  - apply grows_same.
Qed.

Lemma choose_name_frame (m o : value) (self : registry) :
  snd ((if negb (is_None m) then ret m else getattr_name o) self) = self.
Proof.
  destruct m; try reflexivity.
  unfold getattr_name. now destruct (dunder_name o).
Qed.

Lemma run_op_grows (o : op) (self : registry) :
  grows self (snd (run_op o self)).
Proof.
  destruct o as [m obj | m t | n | n]; simpl.
  - unfold Registry.register. destruct (is_None obj); [apply grows_same |].
    apply named_register_grows, choose_name_frame.
  - apply named_register_grows, choose_name_frame.
  - rewrite get_frame. apply grows_same.
  - rewrite getitem_get, get_frame. apply grows_same.
Qed.

(** The registry only grows along a client program. *)
Lemma exec_extends (ops : list op) (self : registry) :
  _name (exec ops self) = _name self /\
  exists ext, _obj_map (exec ops self) = (_obj_map self ++ ext)%list.
Proof.
  revert self; induction ops as [| o ops IH]; intros self.
  - split; [reflexivity | exists []; now rewrite app_nil_r].
  - change (exec (o :: ops) self) with (exec ops (snd (run_op o self))).
    destruct (IH (snd (run_op o self))) as [Hn [ext He]].
    rewrite Hn, He.
    destruct (run_op_grows o self) as [| s obj _].
    + split; [reflexivity | now exists ext].
    + split; [reflexivity |]. simpl.
      exists ((upper s, obj) :: ext). now rewrite <- app_assoc.
Qed.

End MethodFacts.

(** * The registry's contract *)

Section RegistryContract.

(** Lookup of a stored, non-[None] object through a growing registry. *)
Lemma get_after_growth (v : string) (obj : value) (self : registry)
      (ops : list op) :
  PyDict.contains (upper v) (_obj_map self) = true ->
  PyDict.get (upper v) (_obj_map self) = obj ->
  obj <> VNone ->
  get (VStr v) (exec ops self) = (Return obj, exec ops self).
Proof.
  intros Hin Hget Hobj.
  destruct (exec_extends ops self) as [_ [ext He]].
  rewrite get_str, He, get_app_present, Hget by assumption.
  destruct obj; try reflexivity. now destruct Hobj.
Qed.

(** C1. After a direct-mode registration of [obj] (an object, so not
    [None]) under a name whose uppercase form had no entry, [get] of any
    case variant of that name returns [obj] itself, straight away and
    after any further calls on the registry. *)
Theorem direct_register_then_get
        (self : registry) (module_name obj : value) (name v : string) :
  obj <> VNone ->
  registered_as module_name obj name ->
  PyDict.contains (upper name) (_obj_map self) = false ->
  upper v = upper name ->
  fst (register module_name obj self) = Return VNone /\
  forall ops : list op,
    let after := exec ops (snd (register module_name obj self)) in
    get (VStr v) after = (Return obj, after).
Proof.
  intros Hobj Hname Hfresh Hv.
  rewrite (register_direct _ _ name) by assumption.
  rewrite do_register_fresh by assumption.
  split; [reflexivity |]. intros ops after. subst after. simpl snd.
  apply get_after_growth; simpl; rewrite ?Hv; trivial.
  - rewrite contains_app. simpl. rewrite String.eqb_refl. apply orb_true_r.
  - rewrite get_app_absent by assumption. simpl. now rewrite String.eqb_refl.
Qed.

(** C2. Whatever the registry holds, an attempt to register an object
    under a name whose uppercase form already has an entry raises the
    duplicate-registration error ([AssertionError]), in direct mode and
    through the decorator alike, and leaves the registry as it was, so
    every lookup answers as before the attempt. *)
Theorem duplicate_registration_rejected
        (self : registry) (module_name obj : value) (name : string)
        (attempt : op) :
  registered_as module_name obj name ->
  PyDict.contains (upper name) (_obj_map self) = true ->
  (attempt = Register module_name obj /\ obj <> VNone) \/
    attempt = ApplyDeco module_name obj ->
  run_op attempt self =
    (Raise (AssertionError
              (duplicate_message (upper name) (_name self))), self) /\
  forall n : value, get n (snd (run_op attempt self)) = get n self.
Proof.
  intros Hname Hdup Hmode.
  assert (Hrun : run_op attempt self =
    (Raise (AssertionError
              (duplicate_message (upper name) (_name self))), self)).
  { destruct Hmode as [[-> Hobj] | ->]; simpl.
    - rewrite (register_direct _ _ name) by assumption.
      now rewrite do_register_dup.
    - rewrite (deco_body _ _ name) by assumption.
      now rewrite do_register_dup. }
  split; [exact Hrun |]. intros n. now rewrite Hrun.
Qed.

(** C3. Whatever the registry holds, [get] of a name whose uppercase
    form has no entry raises the not-found error ([KeyError]); its
    message contains the uppercase form of the requested name, the
    registry's own name, and the rendering of the whole key view, in
    which every stored key appears (as [repr] writes it). *)
Theorem get_missing_raises (self : registry) (name : string) :
  PyDict.contains (upper name) (_obj_map self) = false ->
  exists msg : string,
    get (VStr name) self = (Raise (KeyError msg), self) /\
    msg = missing_message (upper name) (_name self)
            (PyDict.str_keys repr (_obj_map self)) /\
    PyStr.contains (upper name) msg = true /\
    PyStr.contains (_name self) msg = true /\
    PyStr.contains (PyDict.str_keys repr (_obj_map self)) msg = true /\
    forall k : string,
      PyDict.contains k (_obj_map self) = true ->
      PyStr.contains (repr k) msg = true.
Proof.
  intros Habs. eexists. split; [| split; [reflexivity |]].
  - rewrite get_str, (get_absent _ _ Habs). reflexivity.
  - unfold missing_message. repeat split.
    + apply contains_mid.
    + rewrite <- 2 append_assoc. apply contains_mid.
    + rewrite <- 4 append_assoc. apply contains_mid.
    + intros k Hk.
      apply contains_trans with (PyDict.str_keys repr (_obj_map self)).
      * unfold PyDict.str_keys.
        apply contains_trans
          with (PyStr.join ", " (map repr (PyDict.keys (_obj_map self)))).
        -- apply contains_join, in_map. now apply contains_In.
        -- apply contains_mid.
      * rewrite <- 4 append_assoc. apply contains_mid.
Qed.

(** Two method bodies that differ only in the value they return at
    the end leave the same registry and raise alike. *)
Lemma same_but_result (c1 : method value) (c2 : value -> method unit)
      (v w : value) (self : registry) :
  let d := (name <- c1 ;; c2 name ;; ret v) self in
  let r := (name <- c1 ;; c2 name ;; ret w) self in
  snd d = snd r /\
  (fst r = Return w -> fst d = Return v) /\
  (forall e : exn, fst d = Raise e <-> fst r = Raise e).
Proof.
  cbn [bind ret Monad_method].
  destruct (c1 self) as [[n | e0] s1];
    [destruct (c2 n s1) as [[u | e1] s2] |];
    repeat split; simpl; intros; congruence.
Qed.

(** C4. With [obj] omitted, [register] only hands back the closure;
    applied to a target whose name is free, the closure returns the
    target itself and appends the target under the uppercase form of
    [module_name] when given, of the target's [__name__] otherwise; and
    for every target that direct mode accepts (any object but [None]) the
    closure leaves the registry exactly as the direct call does and
    raises exactly when, and what, the direct call raises. *)
Theorem decorator_registers_and_returns_target
        (self : registry) (module_name target : value) :
  register module_name VNone self = (Return (VDeco module_name), self) /\
  (forall name : string,
      registered_as module_name target name ->
      PyDict.contains (upper name) (_obj_map self) = false ->
      deco module_name target self =
        (Return target,
         mkRegistry (_name self)
           (_obj_map self ++ [(upper name, target)])%list)) /\
  (target <> VNone ->
   snd (deco module_name target self) = snd (register module_name target self) /\
   (fst (register module_name target self) = Return VNone ->
    fst (deco module_name target self) = Return target) /\
   (forall e : exn,
       fst (deco module_name target self) = Raise e <->
       fst (register module_name target self) = Raise e)).
Proof.
  split; [reflexivity |]. split.
  - intros name Hname Hfresh.
    rewrite (deco_body _ _ name) by assumption.
    now rewrite do_register_fresh.
  - intros Hobj.
    assert (Hreg : register module_name target self =
              ((name <- (if negb (is_None module_name) then ret module_name
                         else getattr_name target) ;;
                _do_register name target ;; ret VNone) self)).
    { unfold Registry.register. destruct target; try reflexivity. now destruct Hobj. }
    rewrite Hreg. unfold Registry.deco.
    exact (same_but_result
             (if negb (is_None module_name) then ret module_name
              else getattr_name target)
             (fun name => _do_register name target) target VNone self).
Qed.

Lemma grows_normalized (self self' : registry) :
  grows self self' -> normalized self -> normalized self'.
Proof.
  intros [| s obj Hfresh] [Hup Hnd]; [now split |].
  unfold normalized. simpl. rewrite keys_app. simpl. split.
  - apply Forall_app. split; [exact Hup |].
    constructor; [apply upper_idem | constructor].
  - apply NoDup_app; [exact Hnd | repeat constructor; tauto |].
    intros k Hk [<- | []].
    apply contains_In in Hk. congruence.
Qed.

Lemma exec_normalized (ops : list op) (self : registry) :
  normalized self -> normalized (exec ops self).
Proof.
  revert self; induction ops as [| o ops IH]; intros self H; [exact H |].
  change (exec (o :: ops) self) with (exec ops (snd (run_op o self))).
  apply IH. eapply grows_normalized; [apply run_op_grows | exact H].
Qed.

(** C5. Uppercasing being idempotent, every registry a client can build
    from a fresh one by calls of [register] (in either mode, the closure
    included) and of [get] (or indexing) has only uppercase keys, no key
    twice, and keeps under each key the object stored by the one
    registration that succeeded for it: no later call changes what a
    present key is bound to. *)
Theorem reachable_registry_normalized (self : registry) :
  reachable self ->
  Forall (fun k => upper k = k) (PyDict.keys (_obj_map self)) /\
  NoDup (PyDict.keys (_obj_map self)) /\
  forall (ops : list op) (k : string),
    PyDict.contains k (_obj_map self) = true ->
    PyDict.get k (_obj_map (exec ops self)) = PyDict.get k (_obj_map self).
Proof.
  intros (name & ops0 & ->).
  assert (H : normalized (exec ops0 (__init__ name))).
  { apply exec_normalized. split; constructor. }
  destruct H as [Hup Hnd]. repeat split; trivial.
  intros ops k Hk.
  destruct (exec_extends ops (exec ops0 (__init__ name))) as [_ [ext ->]].
  now apply get_app_present.
Qed.

(** C6. Indexing is [get]: for every registry and every name,
    [registry[name]] returns the same value or raises the same error as
    [registry.get(name)], and leaves the same registry. *)
Theorem getitem_same_as_get (self : registry) (name : value) :
  __getitem__ name self = get name self.
Proof. apply getitem_get. Qed.

(** C7, amended. The key a registration inserts is the input name in
    uppercase, and nothing else of the input name is kept: a duplicate
    is reported with the uppercase form in the message, and two names
    with the same uppercase form are interchangeable in every
    registration and every lookup, messages included. *)
Theorem registration_key_is_uppercase
        (self : registry) (name name' : string) (obj : value) :
  (PyDict.contains (upper name) (_obj_map self) = false ->
   _do_register (VStr name) obj self =
     (Return tt,
      mkRegistry (_name self)
        (_obj_map self ++ [(upper name, obj)])%list)) /\
  (PyDict.contains (upper name) (_obj_map self) = true ->
   exists msg : string,
     _do_register (VStr name) obj self = (Raise (AssertionError msg), self) /\
     PyStr.contains (upper name) msg = true) /\
  (upper name' = upper name ->
   _do_register (VStr name') obj self = _do_register (VStr name) obj self /\
   get (VStr name') self = get (VStr name) self).
Proof.
  split; [apply do_register_fresh |]. split.
  - intros Hdup. eexists. split; [now apply do_register_dup |].
    apply contains_mid.
  - intros Hup. split.
    + destruct (PyDict.contains (upper name) (_obj_map self)) eqn:E.
      * rewrite !do_register_dup; rewrite ?Hup; trivial.
      * rewrite !do_register_fresh; rewrite ?Hup; trivial.
    + now rewrite !get_str, Hup.
Qed.

(** C8. [get] and indexing change nothing: whatever the registry holds
    and whatever name is asked for, found or not, the registry after the
    call (its name and every entry of the mapping) is the registry
    before it. *)
Theorem get_leaves_registry_unchanged (self : registry) (name : value) :
  snd (get name self) = self /\
  snd (__getitem__ name self) = self /\
  _name (snd (get name self)) = _name self /\
  _obj_map (snd (get name self)) = _obj_map self.
Proof.
  rewrite getitem_get, !get_frame. now repeat split.
Qed.

(** C9. A key whose stored value is [None] reads as absent: [get] of
    any case variant of it raises the not-found error although the key
    is in the mapping. Such an entry arises by applying to [None] a
    closure obtained with an explicit module name that is still free. *)
Theorem none_value_reads_as_absent (self : registry) (k v : string) :
  upper v = upper k ->
  (PyDict.contains (upper k) (_obj_map self) = true ->
   PyDict.get (upper k) (_obj_map self) = VNone ->
   get (VStr v) self =
     (Raise (KeyError (missing_message (upper k) (_name self)
                         (PyDict.str_keys repr (_obj_map self)))), self)) /\
  (PyDict.contains (upper k) (_obj_map self) = false ->
   let stored := exec [Register (VStr k) VNone; ApplyDeco (VStr k) VNone] self in
   PyDict.contains (upper k) (_obj_map stored) = true /\
   get (VStr v) stored =
     (Raise (KeyError (missing_message (upper k) (_name stored)
                         (PyDict.str_keys repr (_obj_map stored)))), stored)).
Proof.
  intros Hv. split.
  - intros _ Hnone. now rewrite get_str, Hv, Hnone.
  - intros Hfresh stored.
    assert (Hs : stored = mkRegistry (_name self)
                   (_obj_map self ++ [(upper k, VNone)])%list).
    { unfold stored, exec. simpl.
      rewrite (deco_body _ _ k) by (left; reflexivity).
      now rewrite do_register_fresh. }
    rewrite Hs. simpl. split.
    + rewrite contains_app. simpl. rewrite String.eqb_refl. apply orb_true_r.
    + rewrite get_str, Hv. simpl.
      rewrite get_app_absent by assumption. simpl.
      now rewrite String.eqb_refl.
Qed.

(** C10. A call [register(x)] with one positional argument binds [x] to
    [module_name] and leaves [obj] at [None]: whatever [x] is (the class
    of the docstring's [BACKBONE_REGISTRY.register(MyBackbone)]
    included), the call returns the closure over [x] and inserts
    nothing; the registry after the call is the registry before it. *)
Theorem register_one_argument_inserts_nothing (self : registry) (x : value) :
  register x VNone self = (Return (VDeco x), self) /\
  _obj_map (exec [Register x VNone] self) = _obj_map self /\
  forall name : value,
    get name (exec [Register x VNone] self) = get name self.
Proof. now repeat split. Qed.

End RegistryContract.

(** * Edge cases, frames and composition *)

Section RegistryBehaviour.

Lemma get_app_other (k k' : string) (v : value) (d : PyDict.dict) :
  k <> k' -> PyDict.get k (d ++ [(k', v)])%list = PyDict.get k d.
Proof.
  intros Hne. destruct (PyDict.contains k d) eqn:E.
  - now apply get_app_present.
  - rewrite get_app_absent, (get_absent _ _ E) by assumption. simpl.
    apply String.eqb_neq in Hne. now rewrite Hne.
Qed.

(** A call leaves the registry as it was, or appends the object it was
    given under an uppercase key that was not there. *)
Lemma run_op_appends (o : op) (self : registry) :
  snd (run_op o self) = self \/
  exists (s : string) (obj : value),
    stored_object o = Some obj /\
    PyDict.contains (upper s) (_obj_map self) = false /\
    snd (run_op o self) =
      mkRegistry (_name self) (_obj_map self ++ [(upper s, obj)])%list.
Proof.
  assert (Hdo : forall (c : method value) (obj v : value),
             snd (c self) = self ->
             snd ((name <- c ;; _do_register name obj ;; ret v) self) = self \/
             exists s : string,
               PyDict.contains (upper s) (_obj_map self) = false /\
               snd ((name <- c ;; _do_register name obj ;; ret v) self) =
                 mkRegistry (_name self)
                   (_obj_map self ++ [(upper s, obj)])%list).
  { intros c obj v Hc. cbn [bind ret Monad_method].
    destruct (c self) as [[name | e] self']; simpl in Hc; subst self';
      [| now left].
    destruct name as [| s | | |]; try (now left).
    destruct (PyDict.contains (upper s) (_obj_map self)) eqn:E.
    - rewrite do_register_dup by assumption. now left.
    - rewrite do_register_fresh by assumption. right. now exists s. }
  destruct o as [m obj | m t | n | n]; simpl.
  - unfold Registry.register. destruct (is_None obj) eqn:En; [now left |].
    destruct (Hdo _ obj VNone (choose_name_frame m obj self)) as [H | [s [H1 H2]]];
      [now left | right; now exists s, obj].
  - destruct (Hdo _ t t (choose_name_frame m t self)) as [H | [s [H1 H2]]];
      [now left | right; now exists s, t].
  - left. apply get_frame.
  - left. rewrite getitem_get. apply get_frame.
Qed.

(** X1. A registry just constructed keeps the name it was given and is
    empty: every lookup by a string raises [KeyError] with an empty key
    view in the message, and its string form is the name, a colon and an
    empty pair of braces. *)
Theorem fresh_registry_is_empty
        (repr_object : value -> string) (name v : string) :
  _name (__init__ name) = name /\
  get (VStr v) (__init__ name) =
    (Raise (KeyError ("No object named '" ++ upper v ++ "' found in '"
                        ++ name ++ "' registry[dict_keys([])]!")),
     __init__ name) /\
  __str__ repr_object (__init__ name) = (Return (name ++ ":{}"), __init__ name).
Proof.
  split; [reflexivity |]. split; [reflexivity |].
  unfold Registry.__str__, read. cbn [bind ret Monad_method __init__ _name _obj_map].
  now rewrite append_assoc.
Qed.

(** X2. A lookup by a name that is not a string (it has no [upper]
    method) raises [AttributeError], not [KeyError], through [get] and
    through indexing alike, and leaves the registry as it was. *)
Theorem lookup_by_non_string_raises_attribute_error
        (self : registry) (name : value) :
  (forall s : string, name <> VStr s) ->
  get name self = (Raise (AttributeError "upper"), self) /\
  __getitem__ name self = (Raise (AttributeError "upper"), self).
Proof.
  intros H. rewrite getitem_get. split; now apply get_not_str.
Qed.

(** X3. With no module name, an object that has no [__name__] cannot be
    registered: the direct call (for any such object but [None]) and the
    applied closure (for any such target, [None] included) raise
    [AttributeError] and insert nothing. *)
Theorem nameless_object_not_registered (self : registry) (obj : value) :
  dunder_name obj = None ->
  (obj <> VNone ->
   register VNone obj self = (Raise (AttributeError "__name__"), self)) /\
  deco VNone obj self = (Raise (AttributeError "__name__"), self).
Proof.
  intros Hn. split.
  - intros Hobj. unfold Registry.register, getattr_name. rewrite Hn.
    destruct obj; try reflexivity. now destruct Hobj.
  - unfold Registry.deco, getattr_name. rewrite Hn. reflexivity.
Qed.


(** X5. A registration of an object under a name succeeds exactly when
    the uppercase form of the name has no entry yet, in direct mode and
    through the closure alike; when it does not succeed, what is raised
    is the duplicate [AssertionError]. *)
Theorem registration_succeeds_iff_name_free
        (self : registry) (module_name obj : value) (name : string) :
  obj <> VNone ->
  registered_as module_name obj name ->
  (fst (register module_name obj self) = Return VNone <->
   PyDict.contains (upper name) (_obj_map self) = false) /\
  (fst (deco module_name obj self) = Return obj <->
   PyDict.contains (upper name) (_obj_map self) = false) /\
  (fst (register module_name obj self) = Return VNone \/
   fst (register module_name obj self) =
     Raise (AssertionError
              (duplicate_message (upper name) (_name self)))).
Proof.
  intros Hobj Hname.
  rewrite (register_direct _ _ name), (deco_body _ _ name) by assumption.
  destruct (PyDict.contains (upper name) (_obj_map self)) eqn:E.
  - rewrite do_register_dup by assumption. simpl.
    repeat split; try discriminate; now right.
  - rewrite do_register_fresh by assumption. simpl.
    repeat split; now left.
Qed.

(** X6. A registration (direct or through the closure, successful or
    not) does not change what any other name resolves to: for a name
    whose uppercase form differs from that of the name registered, [get]
    returns an object afterwards exactly when it returned that object
    before. *)
Theorem registration_preserves_other_lookups
        (self : registry) (module_name obj : value) (name v : string)
        (call : op) :
  registered_as module_name obj name ->
  call = Register module_name obj \/ call = ApplyDeco module_name obj ->
  upper v <> upper name ->
  forall x : value,
    fst (get (VStr v) (snd (run_op call self))) = Return x <->
    fst (get (VStr v) self) = Return x.
Proof.
  intros Hname Hcall Hv x.
  assert (Hsnd : snd (run_op call self) = self \/
                 exists o : value,
                   snd (run_op call self) =
                     mkRegistry (_name self)
                       (_obj_map self ++ [(upper name, o)])%list).
  { assert (Hdo : forall o : value,
               snd (_do_register (VStr name) o self) = self \/
               snd (_do_register (VStr name) o self) =
                 mkRegistry (_name self)
                   (_obj_map self ++ [(upper name, o)])%list).
    { intros o.
      destruct (PyDict.contains (upper name) (_obj_map self)) eqn:E.
      - rewrite do_register_dup by assumption. now left.
      - rewrite do_register_fresh by assumption. now right. }
    destruct Hcall as [-> | ->]; simpl.
    - destruct (is_None obj) eqn:En.
      + destruct obj; try discriminate. now left.
      + assert (Hobj : obj <> VNone) by (intros ->; discriminate).
        rewrite (register_direct _ _ name) by assumption.
        destruct (Hdo obj) as [H | H];
          destruct (_do_register (VStr name) obj self) as [[u | e] s'];
          simpl in *; subst; [now left | now left | right | right];
          now exists obj.
    - rewrite (deco_body _ _ name) by assumption.
      destruct (Hdo obj) as [H | H];
        destruct (_do_register (VStr name) obj self) as [[u | e] s'];
        simpl in *; subst; [now left | now left | right | right];
        now exists obj. }
  destruct Hsnd as [-> | [o ->]]; [reflexivity |].
  rewrite !get_str. simpl. rewrite get_app_other by assumption.
  now destruct (is_None (PyDict.get (upper v) (_obj_map self))).
Qed.

(** X7. [get] never returns [None]: it returns an object exactly when
    the uppercase form of the name is bound to that object and the object
    is not [None]; indexing likewise. *)
Theorem get_returns_only_stored_objects
        (self : registry) (name : value) (v : string) (x : value) :
  fst (get name self) <> Return VNone /\
  fst (__getitem__ name self) <> Return VNone /\
  (get (VStr v) self = (Return x, self) <->
   PyDict.get (upper v) (_obj_map self) = x /\ x <> VNone).
Proof.
  assert (H : fst (get name self) <> Return VNone).
  { destruct name as [| s | | |]; try discriminate.
    rewrite get_str.
    destruct (PyDict.get (upper s) (_obj_map self)); discriminate. }
  split; [exact H |]. split; [now rewrite getitem_get |].
  rewrite get_str.
  destruct (PyDict.get (upper v) (_obj_map self)) eqn:E; simpl; split;
    try discriminate; try (intros [<- Hx]; congruence);
    try (intros Hret; injection Hret as <-; split; [reflexivity | discriminate]).
Qed.

(** X8. Whatever calls a client makes, the registry only grows: its
    name never changes, the mapping it had stays as the leading part of
    the mapping it ends with (no entry is removed, replaced or moved), and
    at most one entry is added per call. *)
Theorem registry_only_grows (ops : list op) (self : registry) :
  _name (exec ops self) = _name self /\
  exists ext : PyDict.dict,
    _obj_map (exec ops self) = (_obj_map self ++ ext)%list /\
    length ext <= length ops.
Proof.
  revert self; induction ops as [| o ops IH]; intros self.
  - split; [reflexivity |]. exists []. split; [now rewrite app_nil_r | auto].
  - change (exec (o :: ops) self) with (exec ops (snd (run_op o self))).
    destruct (IH (snd (run_op o self))) as [Hn [ext [He Hl]]].
    rewrite Hn, He.
    destruct (run_op_appends o self) as [-> | (s & obj & _ & _ & ->)].
    + split; [reflexivity |]. exists ext. split; [reflexivity |].
      simpl. now apply Nat.le_le_succ_r.
    + split; [reflexivity |]. simpl.
      exists ((upper s, obj) :: ext). split.
      * now rewrite <- app_assoc.
      * simpl. now apply le_n_S.
Qed.

Lemma values_not_none_step (o : op) (self : registry) :
  stored_object o <> Some VNone ->
  Forall (fun kv => snd kv <> VNone) (_obj_map self) ->
  Forall (fun kv => snd kv <> VNone) (_obj_map (snd (run_op o self))).
Proof.
  intros Ho Hall.
  destruct (run_op_appends o self) as [-> | (s & obj & Hst & _ & ->)];
    [exact Hall |].
  simpl. apply Forall_app. split; [exact Hall |].
  constructor; [| constructor]. simpl. intros ->. now apply Ho.
Qed.

Lemma exec_values_not_none (ops : list op) (self : registry) :
  Forall (fun o => stored_object o <> Some VNone) ops ->
  Forall (fun kv => snd kv <> VNone) (_obj_map self) ->
  Forall (fun kv => snd kv <> VNone) (_obj_map (exec ops self)).
Proof.
  intros Hops. revert self.
  induction Hops as [| o ops Ho _ IH]; intros self Hself; [exact Hself |].
  change (exec (o :: ops) self) with (exec ops (snd (run_op o self))).
  apply IH. now apply values_not_none_step.
Qed.

Lemma get_in_dict (k : string) (d : PyDict.dict) :
  PyDict.contains k d = true -> In (k, PyDict.get k d) d.
Proof.
  induction d as [| [k' v] d IH]; simpl; [discriminate |].
  destruct (String.eqb_spec k k') as [-> | Hne]; simpl.
  - now left.
  - intros H. right. now apply IH.
Qed.

(** X9. Uppercasing being idempotent, as long as no closure is applied
    to [None], every key of the mapping is retrievable: in a registry
    built from a fresh one by such calls, [get] of each stored key returns
    an object that is not [None]. *)
Theorem every_key_retrievable_without_none_target
        (name : string) (ops : list op) (k : string) :
  Forall (fun o => stored_object o <> Some VNone) ops ->
  let self := exec ops (__init__ name) in
  PyDict.contains k (_obj_map self) = true ->
  exists x : value, x <> VNone /\ get (VStr k) self = (Return x, self).
Proof.
  intros Hops self Hk.
  assert (Hnorm : normalized self) by (apply exec_normalized; split; constructor).
  assert (Hval : Forall (fun kv => snd kv <> VNone) (_obj_map self)).
  { apply exec_values_not_none; [exact Hops | constructor]. }
  assert (Hup : upper k = k).
  { destruct Hnorm as [Hup _]. rewrite Forall_forall in Hup.
    apply Hup. now apply contains_In. }
  exists (PyDict.get k (_obj_map self)).
  assert (Hx : PyDict.get k (_obj_map self) <> VNone).
  { rewrite Forall_forall in Hval.
    apply (Hval (k, PyDict.get k (_obj_map self))). now apply get_in_dict. }
  split; [exact Hx |].
  rewrite get_str, Hup.
  destruct (PyDict.get k (_obj_map self)); try reflexivity. now destruct Hx.
Qed.

(** X10. A closure made with an explicit module name registers at most
    once: after it has been applied to any target, whether that call
    succeeded or not, applying it again to any target raises the duplicate
    [AssertionError] and leaves the registry as it was. *)
Theorem named_decorator_registers_once
        (self : registry) (module_name : string) (first second : value) :
  let after := snd (deco (VStr module_name) first self) in
  deco (VStr module_name) second after =
    (Raise (AssertionError
              (duplicate_message (upper module_name) (_name self))),
     after).
Proof.
  intros after.
  assert (Hafter : PyDict.contains (upper module_name) (_obj_map after) = true
                   /\ _name after = _name self).
  { unfold after. rewrite (deco_body _ _ module_name) by (left; reflexivity).
    destruct (PyDict.contains (upper module_name) (_obj_map self)) eqn:E.
    - rewrite do_register_dup by assumption. now split.
    - rewrite do_register_fresh by assumption. simpl. split; [| reflexivity].
      rewrite contains_app. simpl. rewrite String.eqb_refl. apply orb_true_r. }
  destruct Hafter as [Hin Hn].
  rewrite (deco_body _ _ module_name) by (left; reflexivity).
  now rewrite do_register_dup, Hn.
Qed.

Section StrFacts.

Variable repr_object : value -> string.

Lemma join_snoc (sep x : string) (y : string) (l : list string) :
  PyStr.join sep ((y :: l) ++ [x])%list = PyStr.join sep (y :: l) ++ sep ++ x.
Proof.
  revert y; induction l as [| z l IH]; intros y; [reflexivity |].
  change (((y :: z :: l) ++ [x])%list) with (y :: ((z :: l) ++ [x]))%list.
  change (PyStr.join sep (y :: ((z :: l) ++ [x]))%list)
    with (y ++ sep ++ PyStr.join sep ((z :: l) ++ [x])%list).
  now rewrite IH, join_cons, !append_assoc.
Qed.

Lemma str_frame (self : registry) :
  __str__ repr_object self =
    (Return (_name self ++ ":" ++ str_dict repr_object (_obj_map self)), self).
Proof.
  unfold Registry.__str__, read. cbn [bind ret Monad_method]. now rewrite append_assoc.
Qed.

(** X11. The string form of a registry is its name, a colon, and the
    mapping in braces; it shows every entry, as the [repr] of the key, a
    colon and the [repr] of the object, and producing it leaves the
    registry as it was. *)
Theorem str_shows_name_and_every_entry
        (self : registry) (k : string) (x : value) :
  In (k, x) (_obj_map self) ->
  exists text : string,
    __str__ repr_object self = (Return text, self) /\
    PyStr.startswith (_name self ++ ":{") text = true /\
    PyStr.contains (repr k ++ ": " ++ repr_value repr_object x) text = true.
Proof.
  intros Hin. eexists. split; [apply str_frame |]. split.
  - unfold Registry.str_dict.
    change ("{" ++ PyStr.join ", " (map (str_item repr_object) (_obj_map self)) ++ "}")
      with (String "{" (PyStr.join ", " (map (str_item repr_object) (_obj_map self)) ++ "}")).
    replace (_name self ++ ":" ++ String "{"
               (PyStr.join ", " (map (str_item repr_object) (_obj_map self)) ++ "}"))
      with ((_name self ++ ":{") ++
            (PyStr.join ", " (map (str_item repr_object) (_obj_map self)) ++ "}"))
      by (now rewrite append_assoc).
    apply startswith_app.
  - apply contains_trans
      with (PyStr.join ", " (map (str_item repr_object) (_obj_map self))).
    + apply contains_join.
      change (repr k ++ ": " ++ repr_value repr_object x)
        with (str_item repr_object (k, x)).
      now apply in_map.
    + unfold Registry.str_dict. apply contains_iff.
      exists (_name self ++ ":{"), "}". now rewrite append_assoc.
Qed.

(** X12. Entries are shown in the order they were registered: after a
    successful direct registration on a registry that is not empty, the
    string form is the one before it with the new entry put last, just
    before the closing brace. *)
Theorem str_lists_new_entry_last
        (self : registry) (module_name obj : value) (name body : string) :
  obj <> VNone ->
  registered_as module_name obj name ->
  PyDict.contains (upper name) (_obj_map self) = false ->
  _obj_map self <> [] ->
  fst (__str__ repr_object self) = Return (body ++ "}") ->
  fst (__str__ repr_object (snd (register module_name obj self))) =
    Return (body ++ ", " ++ repr (upper name) ++ ": "
              ++ repr_value repr_object obj ++ "}").
Proof.
  intros Hobj Hname Hfresh Hne Hbody.
  rewrite (register_direct _ _ name) by assumption.
  rewrite do_register_fresh by assumption.
  rewrite str_frame in Hbody. rewrite str_frame.
  cbn [fst snd _name _obj_map] in *.
  destruct (_obj_map self) as [| e d]; [now destruct Hne |].
  injection Hbody as Hbody. f_equal.
  unfold Registry.str_dict in *. rewrite map_app. cbn [map] in *.
  rewrite join_snoc.
  set (J := PyStr.join ", " (str_item repr_object e :: map (str_item repr_object) d)) in *.
  assert (Hcut : forall a b : string, a ++ "}" = b ++ "}" -> a = b).
  { clear. induction a as [| c a IH]; intros [| c' b] H; simpl in H.
    - reflexivity.
    - destruct b; discriminate.
    - destruct a; discriminate.
    - injection H as -> H. f_equal. now apply IH. }
  assert (Hb : body = _name self ++ ":{" ++ J).
  { apply Hcut. rewrite <- Hbody. clear.
    induction (_name self) as [| c n IH]; simpl; [reflexivity |].
    f_equal. exact IH. }
  rewrite Hb. unfold Registry.str_item. cbn [fst snd]. clear.
  generalize (repr (upper name)) (repr_value repr_object obj) J.
  intros R V T.
  induction (_name self) as [| c n IH]; simpl; [| f_equal; exact IH].
  repeat (rewrite append_assoc; simpl). reflexivity.
Qed.

End StrFacts.

End RegistryBehaviour.

End Verification.

(** * The statements at work on ASCII examples *)

Section Examples.

Import Registry.

Local Abbreviation upper := PyStr.upper_ascii.
Local Abbreviation repr := PyStr.repr_ascii.
Local Abbreviation _do_register := (Registry._do_register upper).
Local Abbreviation register := (Registry.register upper).
Local Abbreviation deco := (Registry.deco upper).
Local Abbreviation get := (Registry.get upper repr).
Local Abbreviation __getitem__ := (Registry.__getitem__ upper repr).
Local Abbreviation __str__ := (Registry.__str__ repr).
Local Abbreviation run_op := (run_op upper repr).
Local Abbreviation exec := (exec upper repr).
Local Abbreviation reachable := (reachable upper repr).

Lemma direct_register_then_get_witness :
  let self := __init__ "TEST" in
  let ops := [Register (VStr "beta") (VObj 2 None); Get (VStr "nobody")] in
  VInt 42 <> VNone /\
  registered_as (VStr "Foo") (VInt 42) "Foo" /\
  get (VStr "fOO") (exec ops (snd (register (VStr "Foo") (VInt 42) self)))
  = (Return (VInt 42),
     mkRegistry "TEST" [("FOO", VInt 42); ("BETA", VObj 2 None)]).
Proof.
  intros self ops.
  assert (H1 : VInt 42 <> VNone) by discriminate.
  assert (H2 : registered_as (VStr "Foo") (VInt 42) "Foo") by (left; reflexivity).
  split; [exact H1 |]. split; [exact H2 |].
  exact (proj2 (direct_register_then_get upper repr self (VStr "Foo") (VInt 42) "Foo" "fOO"
                  H1 H2 eq_refl eq_refl) ops).
Defined.

Lemma duplicate_registration_rejected_witness :
  let self := exec [ApplyDeco VNone (VObj 7 (Some "Alpha"))] (__init__ "TEST") in
  run_op (Register (VStr "ALPHA") (VInt 99)) self =
    (Raise (AssertionError
       "An object named 'ALPHA' was already registered in 'TEST' registry!"),
     self) /\
  get (VStr "alpha") (snd (run_op (Register (VStr "ALPHA") (VInt 99)) self))
  = (Return (VObj 7 (Some "Alpha")), self).
Proof.
  intros self.
  assert (Hobj : VInt 99 <> VNone) by discriminate.
  pose proof (duplicate_registration_rejected upper repr self (VStr "ALPHA") (VInt 99)
                "ALPHA" (Register (VStr "ALPHA") (VInt 99))
                (or_introl eq_refl) eq_refl
                (or_introl (conj eq_refl Hobj))) as [H1 H2].
  split; [exact H1 |]. rewrite H2. reflexivity.
Defined.

Lemma get_missing_raises_witness :
  let self := exec [Register (VStr "Alpha") (VInt 42);
                    Register (VStr "b\eta") (VInt 1)] (__init__ "TEST") in
  exists msg : string,
    get (VStr "missing") self = (Raise (KeyError msg), self) /\
    msg = "No object named 'MISSING' found in 'TEST' registry[dict_keys(['ALPHA', 'B\\ETA'])]!".
Proof.
  intros self.
  destruct (get_missing_raises upper repr self "missing" eq_refl) as [msg [H1 [H2 _]]].
  exists msg. split; [exact H1 | exact H2].
Defined.

Lemma decorator_registers_and_returns_target_witness :
  let self := __init__ "TEST" in
  let doWork := VObj 5 (Some "doWork") in
  deco VNone doWork self = (Return doWork, mkRegistry "TEST" [("DOWORK", doWork)]) /\
  snd (deco VNone doWork self) = snd (register VNone doWork self).
Proof.
  intros self doWork.
  destruct (decorator_registers_and_returns_target upper self VNone doWork)
    as [_ [H1 H2]].
  split.
  - exact (H1 "doWork" (or_intror (conj eq_refl eq_refl)) eq_refl).
  - refine (proj1 (H2 _)). discriminate.
Defined.

Lemma reachable_registry_normalized_witness :
  let self := exec [Register (VStr "Alpha") (VInt 42);
                    ApplyDeco VNone (VObj 5 (Some "doWork"));
                    Register (VStr "ALPHA") (VInt 99);
                    Get (VStr "dowork")] (__init__ "TEST") in
  reachable self /\
  NoDup (PyDict.keys (_obj_map self)) /\
  PyDict.get "ALPHA"
    (_obj_map (exec [ApplyDeco (VStr "alpha") (VInt 7)] self)) = VInt 42.
Proof.
  intros self.
  assert (H : reachable self) by (eexists; eexists; reflexivity).
  split; [exact H |].
  destruct (reachable_registry_normalized upper repr upper_ascii_idem self H) as [_ [H2 H3]].
  split; [exact H2 |].
  exact (H3 [ApplyDeco (VStr "alpha") (VInt 7)] "ALPHA" eq_refl).
Defined.

(** C7 as the specification words it fails: the name as the caller wrote
    it is not kept for display. All the names being ASCII, the built-ins
    are run as [PyStr.upper_ascii] and [PyStr.repr_ascii]. On the registry
    named TEST that holds
    ALPHA, the duplicate-registration message for [alpha] and the
    not-found message for [beta] show only the uppercase forms, and
    registering [Alpha] or [ALPHA] leaves one and the same registry. *)
Lemma original_name_not_displayed :
  let self := exec [Register (VStr "Alpha") (VInt 42)] (__init__ "TEST") in
  let dup := "An object named 'ALPHA' was already registered in 'TEST' registry!" in
  let miss := "No object named 'BETA' found in 'TEST' registry[dict_keys(['ALPHA'])]!" in
  register (VStr "alpha") (VInt 99) self = (Raise (AssertionError dup), self) /\
  PyStr.contains "alpha" dup = false /\
  get (VStr "beta") self = (Raise (KeyError miss), self) /\
  PyStr.contains "beta" miss = false /\
  self = exec [Register (VStr "ALPHA") (VInt 42)] (__init__ "TEST").
Proof. repeat split. Qed.

Lemma registration_key_is_uppercase_witness :
  let self := exec [Register (VStr "Alpha") (VInt 42)] (__init__ "TEST") in
  _do_register (VStr "doWork") (VInt 1) self =
    (Return tt,
     mkRegistry "TEST" [("ALPHA", VInt 42); ("DOWORK", VInt 1)]) /\
  (exists msg : string,
     _do_register (VStr "alpha") (VInt 1) self
     = (Raise (AssertionError msg), self) /\
     PyStr.contains "ALPHA" msg = true) /\
  get (VStr "aLPHa") self = get (VStr "Alpha") self.
Proof.
  intros self. split; [| split].
  - exact (proj1 (registration_key_is_uppercase upper repr self "doWork" "doWork" (VInt 1))
             eq_refl).
  - exact (proj1 (proj2 (registration_key_is_uppercase upper repr self "alpha" "alpha"
                           (VInt 1))) eq_refl).
  - exact (proj2 (proj2 (proj2 (registration_key_is_uppercase upper repr self "Alpha"
                                  "aLPHa" (VInt 1))) eq_refl)).
Defined.

Lemma none_value_reads_as_absent_witness :
  let stored := exec [Register (VStr "k") VNone; ApplyDeco (VStr "k") VNone]
                  (__init__ "TEST") in
  PyDict.contains "K" (_obj_map stored) = true /\
  get (VStr "K") stored =
    (Raise (KeyError
       "No object named 'K' found in 'TEST' registry[dict_keys(['K'])]!"),
     stored).
Proof.
  exact (proj2 (none_value_reads_as_absent upper repr (__init__ "TEST") "k" "K" eq_refl)
           eq_refl).
Defined.

Lemma lookup_by_non_string_raises_attribute_error_witness :
  let self := exec [Register (VStr "Alpha") (VInt 42)] (__init__ "TEST") in
  get VNone self = (Raise (AttributeError "upper"), self) /\
  __getitem__ (VInt 3) self = (Raise (AttributeError "upper"), self).
Proof.
  intros self. split.
  - refine (proj1 (lookup_by_non_string_raises_attribute_error upper repr self VNone _)).
    discriminate.
  - refine (proj2 (lookup_by_non_string_raises_attribute_error upper repr self (VInt 3) _)).
    discriminate.
Defined.

Lemma nameless_object_not_registered_witness :
  let self := __init__ "TEST" in
  register VNone (VInt 42) self = (Raise (AttributeError "__name__"), self) /\
  deco VNone VNone self = (Raise (AttributeError "__name__"), self).
Proof.
  intros self. split.
  - refine (proj1 (nameless_object_not_registered upper self (VInt 42) eq_refl) _).
    discriminate.
  - exact (proj2 (nameless_object_not_registered upper self VNone eq_refl)).
Defined.


Lemma registration_succeeds_iff_name_free_witness :
  let self := exec [Register (VStr "Alpha") (VInt 42)] (__init__ "TEST") in
  fst (register (VStr "beta") (VInt 1) self) = Return VNone /\
  fst (deco (VStr "ALPHA") (VInt 1) self) <> Return (VInt 1).
Proof.
  intros self.
  assert (Hobj : VInt 1 <> VNone) by discriminate.
  split.
  - exact (proj2 (proj1 (registration_succeeds_iff_name_free upper self (VStr "beta")
                           (VInt 1) "beta" Hobj (or_introl eq_refl))) eq_refl).
  - intros H.
    pose proof (proj1 (proj1 (proj2 (registration_succeeds_iff_name_free upper self
                  (VStr "ALPHA") (VInt 1) "ALPHA" Hobj (or_introl eq_refl)))) H)
      as Hfree.
    discriminate Hfree.
Defined.

Lemma registration_preserves_other_lookups_witness :
  let self := exec [Register (VStr "Alpha") (VInt 42)] (__init__ "TEST") in
  fst (get (VStr "alpha")
         (snd (run_op (ApplyDeco VNone (VObj 5 (Some "doWork"))) self)))
  = Return (VInt 42).
Proof.
  intros self.
  refine (proj2 (registration_preserves_other_lookups upper repr self VNone
                   (VObj 5 (Some "doWork")) "doWork" "alpha"
                   (ApplyDeco VNone (VObj 5 (Some "doWork")))
                   (or_intror (conj eq_refl eq_refl)) (or_intror eq_refl) _
                   (VInt 42)) eq_refl).
  discriminate.
Defined.

Lemma get_returns_only_stored_objects_witness :
  let self := exec [Register (VStr "Alpha") (VInt 42)] (__init__ "TEST") in
  get (VStr "aLpHa") self = (Return (VInt 42), self).
Proof.
  intros self.
  assert (Hx : VInt 42 <> VNone) by discriminate.
  exact (proj2 (proj2 (proj2 (get_returns_only_stored_objects upper repr self VNone
                                "aLpHa" (VInt 42))))
           (conj eq_refl Hx)).
Defined.

Lemma every_key_retrievable_without_none_target_witness :
  let ops := [Register (VStr "Alpha") (VInt 42);
              ApplyDeco VNone (VObj 5 (Some "doWork"));
              Register (VStr "unused") VNone] in
  exists x : value,
    x <> VNone /\
    get (VStr "DOWORK") (exec ops (__init__ "TEST"))
    = (Return x, exec ops (__init__ "TEST")).
Proof.
  intros ops.
  assert (Hops : Forall (fun o => stored_object o <> Some VNone) ops)
    by (repeat constructor; discriminate).
  exact (every_key_retrievable_without_none_target upper repr upper_ascii_idem "TEST" ops "DOWORK" Hops
           eq_refl).
Defined.

Lemma str_shows_name_and_every_entry_witness :
  let repr_int := fun v : value =>
    match v with VInt 42 => "42" | _ => "<object>" end in
  let self := exec [Register (VStr "Alpha") (VInt 42)] (__init__ "TEST") in
  exists text : string,
    __str__ repr_int self = (Return text, self) /\
    PyStr.startswith "TEST:{" text = true /\
    PyStr.contains "'ALPHA': 42" text = true.
Proof.
  intros repr_int self.
  exact (str_shows_name_and_every_entry repr repr_int self "ALPHA" (VInt 42)
           (or_introl eq_refl)).
Defined.

Lemma str_lists_new_entry_last_witness :
  let repr_int := fun v : value =>
    match v with VInt 42 => "42" | VInt 7 => "7" | _ => "<object>" end in
  let self := exec [Register (VStr "Alpha") (VInt 42)] (__init__ "TEST") in
  fst (__str__ repr_int (snd (register (VStr "beta") (VInt 7) self))) =
    Return "TEST:{'ALPHA': 42, 'BETA': 7}".
Proof.
  intros repr_int self.
  assert (Hobj : VInt 7 <> VNone) by discriminate.
  assert (Hne : _obj_map self <> []) by discriminate.
  exact (str_lists_new_entry_last upper repr repr_int self (VStr "beta") (VInt 7) "beta"
           "TEST:{'ALPHA': 42" Hobj (or_introl eq_refl) eq_refl Hne eq_refl).
Defined.

End Examples.
